(** * Dynamic ambulance priority: the scoring core of [ambulance/dynamic_ai.py]

    A shallow embedding of the pure scoring chain (base severity lookup,
    vital-risk aggregation, transit risk, clamping, category and traffic
    action mapping) and the properties its specification states about it.

    Python integers are unbounded, so they are [Z]; labels are [string];
    the two dictionary literals are [gmap string _]; the one partial
    operation of the module, subscripting a dictionary, returns a [result]
    that carries Python's [KeyError].  The simulated sensor and the
    simulation loop run in a state-and-exception monad over the random
    generator, the printed lines and the time slept. *)

From Stdlib Require Import ZArith Lia.
From stdpp Require Import base strings list gmap pretty.

Local Open Scope string_scope.
Local Open Scope Z_scope.

(** ** Python dictionaries with string keys *)

Module Py.

Inductive exn : Type :=
| KeyError (key : string).

Inductive result (A : Type) : Type :=
| Ok (value : A)
| Raise (e : exn).

Arguments Ok {A} value.
Arguments Raise {A} e.

(** A dictionary display [{k1: v1, ..., kn: vn}]: the items are stored
    from left to right, so a later duplicate key overwrites an earlier
    one. *)
Definition dict_literal {V : Type} (items : list (string * V)) : gmap string V :=
  foldl (fun d kv => <[kv.1 := kv.2]> d) ∅ items.

(** [d.get(key, dflt)]: never raises. *)
Definition dict_get {V : Type} (d : gmap string V) (key : string) (dflt : V) : V :=
  match d !! key with
  | Some v => v
  | None => dflt
  end.

(** [d[key]]: raises [KeyError(key)] when the key is absent. *)
Definition dict_getitem {V : Type} (d : gmap string V) (key : string) : result V :=
  match d !! key with
  | Some v => Ok v
  | None => Raise (KeyError key)
  end.

End Py.

(** ** 1. Base medical priority *)

Definition priority_map : gmap string Z :=
  Py.dict_literal
    [ ("cardiac_arrest", 5);
      ("stroke", 4);
      ("severe_accident", 4);
      ("trauma", 3);
      ("minor_injury", 1) ].

Definition base_medical_priority (emergency_type : string) : Z :=
  Py.dict_get priority_map emergency_type 2.

(** ** 2. Vital risk analysis *)

Definition spo2_risk (spo2 : Z) : Z :=
  if spo2 <? 85 then 3
  else if spo2 <? 90 then 2
  else if spo2 <? 94 then 1
  else 0.

Definition heart_rate_risk (hr : Z) : Z :=
  if (hr <? 40) || (hr >? 130) then 2
  else if hr >? 110 then 1
  else 0.

Definition deterioration_risk (prev_spo2 curr_spo2 : Z) : Z :=
  let drop := prev_spo2 - curr_spo2 in
  if drop >=? 5 then 2
  else if drop >=? 2 then 1
  else 0.

Definition vital_risk_score (hr spo2 prev_spo2 : Z) : Z :=
  let risk :=
    spo2_risk spo2
    + heart_rate_risk hr
    + deterioration_risk prev_spo2 spo2 in
  Z.min risk 5.

(** ** 3. Time-to-hospital risk *)

Definition time_to_hospital_risk (eta_minutes : Z) : Z :=
  if eta_minutes >? 15 then 2
  else if eta_minutes >? 8 then 1
  else 0.

(** ** 4. Final priority calculation *)

Definition calculate_priority
    (emergency_type : string) (hr spo2 prev_spo2 eta : Z) : Z :=
  let priority_score :=
    base_medical_priority emergency_type
    + vital_risk_score hr spo2 prev_spo2
    + time_to_hospital_risk eta in
  Z.min priority_score 10.

(** ** 5. Priority category mapping *)

Definition priority_category (score : Z) : string :=
  if score >=? 9 then "CRITICAL"
  else if score >=? 7 then "VERY HIGH"
  else if score >=? 5 then "HIGH"
  else if score >=? 3 then "MEDIUM"
  else "LOW".

(** ** 6. Traffic signal decision *)

Definition decisions : gmap string string :=
  Py.dict_literal
    [ ("CRITICAL", "Immediate green corridor (override all signals)");
      ("VERY HIGH", "Green corridor with maximum preference");
      ("HIGH", "Green at next signal cycle");
      ("MEDIUM", "Partial priority at intersections");
      ("LOW", "Normal traffic flow") ].

Definition traffic_decision (priority_level : string) : Py.result string :=
  Py.dict_getitem decisions priority_level.

(** ** Vocabulary of the specification *)

(** The five labels the severity table knows. *)
Definition known_emergency_types : list string :=
  [ "cardiac_arrest"; "stroke"; "severe_accident"; "trauma"; "minor_injury" ].

(** The five priority categories, most severe first. *)
Definition categories : list string :=
  [ "CRITICAL"; "VERY HIGH"; "HIGH"; "MEDIUM"; "LOW" ].

(** The five advisory strings of the action table, in the same order. *)
Definition actions : list string :=
  [ "Immediate green corridor (override all signals)";
    "Green corridor with maximum preference";
    "Green at next signal cycle";
    "Partial priority at intersections";
    "Normal traffic flow" ].

(** Severity order on category labels: a larger rank is more severe.
    A string that is no category has rank 0. *)
Definition severity_rank (category : string) : Z :=
  if decide (category = "CRITICAL") then 4
  else if decide (category = "VERY HIGH") then 3
  else if decide (category = "HIGH") then 2
  else if decide (category = "MEDIUM") then 1
  else 0.

(** ** 7. Simulated sensor and 8. simulation loop

    The two remaining functions draw random numbers, print and sleep.
    They run in a state-and-exception monad over a [world] that holds the
    random generator, the lines printed so far and the seconds slept. *)

Module PyIO.

(** What can be raised while the simulation runs. *)
Inductive exception : Type :=
| KeyError (key : string)
| ValueError.

Inductive outcome (A : Type) : Type :=
| Returned (value : A)
| Raised (e : exception).

Arguments Returned {A} value.
Arguments Raised {A} e.

(** The generator is its stream of raw outputs [entropy] and the number
    [draws] of outputs consumed; [stdout] has one entry per [print] call;
    [slept] is the total of the [time.sleep] arguments. *)
Record world : Type := World {
  entropy : nat -> Z;
  draws : nat;
  stdout : list string;
  slept : Z
}.

Definition M (A : Type) : Type := world -> outcome A * world.

Definition ret {A : Type} (a : A) : M A := fun w => (Returned a, w).

Definition bind {A B : Type} (c : M A) (k : A -> M B) : M B :=
  fun w =>
    match c w with
    | (Returned a, w') => k a w'
    | (Raised e, w') => (Raised e, w')
    end.

(** A pure call that may raise, run inside the monad. *)
Definition lift {A : Type} (r : Py.result A) : M A :=
  fun w =>
    match r with
    | Py.Ok a => (Returned a, w)
    | Py.Raise (Py.KeyError key) => (Raised (KeyError key), w)
    end.

(** [random.randint(a, b)]: an integer N with a <= N <= b, taken from the
    next raw output; [ValueError] on an empty range. *)
Definition randint (a b : Z) : M Z :=
  fun w =>
    if b <? a then (Raised ValueError, w)
    else (Returned (a + entropy w (draws w) mod (b - a + 1)),
          World (entropy w) (S (draws w)) (stdout w) (slept w)).

(** [print(line)]. *)
Definition print (line : string) : M unit :=
  fun w =>
    (Returned tt, World (entropy w) (draws w) (stdout w ++ [line]) (slept w)).

(** [time.sleep(seconds)]. *)
Definition sleep (seconds : Z) : M unit :=
  fun w =>
    (Returned tt, World (entropy w) (draws w) (stdout w) (slept w + seconds)).

(** [for x in xs: vars = body(x, vars)]: the loop variables are threaded
    through the iterations; an exception ends the loop. *)
Fixpoint for_each {A S : Type} (xs : list A) (body : A -> S -> M S) (vars : S) : M S :=
  match xs with
  | [] => ret vars
  | x :: xs' => bind (body x vars) (for_each xs' body)
  end.

(** [range(start, stop)]. *)
Definition range (start stop : Z) : list Z :=
  seqZ start (stop - start).

(** [s * n] on strings. *)
Definition str_mul (s : string) (n : Z) : string :=
  Nat.iter (Z.to_nat n) (String.append s) "".

End PyIO.

#[global] Instance pyio_ret : MRet PyIO.M := @PyIO.ret.
#[global] Instance pyio_bind : MBind PyIO.M := fun A B k c => PyIO.bind c k.

Definition generate_fake_vitals (prev_spo2 : Z) : PyIO.M (Z * Z) :=
  heart_rate ← PyIO.randint 80 150;
  delta ← PyIO.randint (-4) 2;
  let spo2 := Z.max 80 (Z.min 98 (prev_spo2 + delta)) in
  mret (heart_rate, spo2).

Definition newline : string := String (Ascii.ascii_of_nat 10) "".

Definition banner : string :=
  newline +:+ "🚑 AI-Based Dynamic Ambulance Priority Simulation" +:+ newline.

(** One pass through the body of the loop of [run_simulation]; the loop
    variables are [(prev_spo2, eta)]. *)
Definition run_simulation_body
    (emergency_type : string) (minute : Z) (vars : Z * Z) : PyIO.M (Z * Z) :=
  let '(prev_spo2, eta) := vars in
  '(hr, spo2) ← generate_fake_vitals prev_spo2;
  let priority := calculate_priority emergency_type hr spo2 prev_spo2 eta in
  let category := priority_category priority in
  action ← PyIO.lift (traffic_decision category);
  PyIO.print ("Minute " +:+ pretty minute);;
  PyIO.print ("  Heart Rate        : " +:+ pretty hr +:+ " bpm");;
  PyIO.print ("  Oxygen Level (SpO₂): " +:+ pretty spo2 +:+ "%");;
  PyIO.print ("  ETA to Hospital   : " +:+ pretty eta +:+ " minutes");;
  PyIO.print ("  Priority Score    : " +:+ pretty priority +:+ "/10");;
  PyIO.print ("  Priority Level    : " +:+ category);;
  PyIO.print ("  Traffic Action    : " +:+ action);;
  PyIO.print (PyIO.str_mul "-" 55);;
  PyIO.sleep 1;;
  mret (spo2, eta - 1).

Definition run_simulation : PyIO.M unit :=
  let emergency_type := "stroke" in
  let eta := 15 in
  let prev_spo2 := 96 in
  PyIO.print banner;;
  PyIO.for_each (PyIO.range 1 9)
    (run_simulation_body emergency_type) (prev_spo2, eta);;
  mret tt.

(** The values one pass of the loop prints, and the lines it prints
    them on. *)
Record report : Type := Report {
  r_minute : Z;
  r_hr : Z;
  r_spo2 : Z;
  r_eta : Z;
  r_priority : Z;
  r_category : string;
  r_action : string
}.

Definition render (r : report) : list string :=
  [ "Minute " +:+ pretty (r_minute r);
    "  Heart Rate        : " +:+ pretty (r_hr r) +:+ " bpm";
    "  Oxygen Level (SpO₂): " +:+ pretty (r_spo2 r) +:+ "%";
    "  ETA to Hospital   : " +:+ pretty (r_eta r) +:+ " minutes";
    "  Priority Score    : " +:+ pretty (r_priority r) +:+ "/10";
    "  Priority Level    : " +:+ r_category r;
    "  Traffic Action    : " +:+ r_action r;
    PyIO.str_mul "-" 55 ].

(** What one pass of the loop guarantees about the values it prints, given
    the SpO2 reading of the pass before. *)
Definition pass_ok (emergency_type : string) (prev_spo2 : Z) (r : report) : Prop :=
  80 <= r_hr r <= 150
  /\ (exists delta : Z,
        -4 <= delta <= 2
        /\ r_spo2 r = Z.max 80 (Z.min 98 (prev_spo2 + delta)))
  /\ r_priority r
     = calculate_priority emergency_type (r_hr r) (r_spo2 r) prev_spo2 (r_eta r)
  /\ r_category r = priority_category (r_priority r)
  /\ traffic_decision (r_category r) = Py.Ok (r_action r).

(** Successive passes: each one is scored against the SpO2 printed by the
    one before, the first against [prev_spo2]. *)
Fixpoint threaded (emergency_type : string) (prev_spo2 : Z) (reports : list report) : Prop :=
  match reports with
  | [] => True
  | r :: reports' =>
      pass_ok emergency_type prev_spo2 r
      /\ threaded emergency_type (r_spo2 r) reports'
  end.

(** * Properties *)

(** ** Dictionary lemmas *)

Section dict_facts.
Context {V : Type}.
Implicit Types (d : gmap string V) (items : list (string * V)) (key : string).

Lemma foldl_insert_lookup_None items d key :
  foldl (fun d kv => <[kv.1 := kv.2]> d) d items !! key = None
  <-> d !! key = None /\ key ∉ items.*1.
Proof.
  revert d. induction items as [|[k v] items IH]; intros d; simpl.
  - split; [intros H; split; [done | apply not_elem_of_nil] | tauto].
  - rewrite IH, lookup_insert_None, not_elem_of_cons. simpl.
    intuition congruence.
Qed.

Lemma dict_literal_lookup_None items key :
  Py.dict_literal items !! key = None <-> key ∉ items.*1.
Proof.
  unfold Py.dict_literal. rewrite foldl_insert_lookup_None, lookup_empty.
  tauto.
Qed.

Lemma dict_get_absent d key dflt :
  d !! key = None -> Py.dict_get d key dflt = dflt.
Proof. unfold Py.dict_get. by intros ->. Qed.

Lemma dict_getitem_absent d key :
  d !! key = None -> Py.dict_getitem d key = Py.Raise (Py.KeyError key).
Proof. unfold Py.dict_getitem. by intros ->. Qed.

Lemma dict_getitem_present d key v :
  d !! key = Some v -> Py.dict_getitem d key = Py.Ok v.
Proof. unfold Py.dict_getitem. by intros ->. Qed.

End dict_facts.

(** Case analysis on the comparisons of the scoring functions. *)
Ltac branches :=
  repeat match goal with
    | |- context [?a <? ?b] => destruct (Z.ltb_spec a b)
    | |- context [?a >? ?b] => destruct (Z.gtb_spec a b)
    | |- context [?a >=? ?b] => destruct (Z.geb_spec a b)
    end; simpl.

(** ** Severity lookup *)

Lemma priority_map_absent (emergency_type : string) :
  priority_map !! emergency_type = None <-> emergency_type ∉ known_emergency_types.
Proof. apply dict_literal_lookup_None. Qed.

Lemma base_medical_priority_unknown (emergency_type : string) :
  emergency_type ∉ known_emergency_types ->
  base_medical_priority emergency_type = 2.
Proof.
  intros H. apply dict_get_absent. by apply priority_map_absent.
Qed.

(** Every value the lookup can return: a table value or the default. *)
Lemma base_medical_priority_values (emergency_type : string) :
  base_medical_priority emergency_type ∈ [5; 4; 3; 1; 2].
Proof.
  destruct (decide (emergency_type ∈ known_emergency_types)) as [Hin|Hout].
  - unfold known_emergency_types in Hin.
    repeat (apply elem_of_cons in Hin as [->|Hin];
            [vm_compute; set_solver|]).
    by apply elem_of_nil in Hin.
  - rewrite (base_medical_priority_unknown _ Hout). set_solver.
Qed.

Lemma base_medical_priority_bounds (emergency_type : string) :
  1 <= base_medical_priority emergency_type <= 5.
Proof.
  pose proof (base_medical_priority_values emergency_type) as H.
  repeat (apply elem_of_cons in H as [->|H]; [lia|]).
  by apply elem_of_nil in H.
Qed.

(** C6: the severity lookup returns the table's value on each of its five
    labels (cardiac_arrest 5, stroke 4, severe_accident 4, trauma 3,
    minor_injury 1), and the default 2 on every other label; being a total
    function into the integers, it raises nothing. *)
Theorem base_medical_priority_table :
  base_medical_priority "cardiac_arrest" = 5
  /\ base_medical_priority "stroke" = 4
  /\ base_medical_priority "severe_accident" = 4
  /\ base_medical_priority "trauma" = 3
  /\ base_medical_priority "minor_injury" = 1
  /\ forall emergency_type : string,
       emergency_type ∉ known_emergency_types ->
       base_medical_priority emergency_type = 2.
Proof.
  repeat split; try (vm_compute; reflexivity).
  apply base_medical_priority_unknown.
Qed.

Lemma base_medical_priority_table_witness :
  ("unknown_label" ∉ known_emergency_types)
  /\ base_medical_priority "unknown_label" = 2.
Proof.
  assert (H : ("unknown_label" ∉ known_emergency_types)).
  { apply (proj1 (priority_map_absent "unknown_label")). vm_compute. reflexivity. }
  split; [exact H|].
  exact (proj2 (proj2 (proj2 (proj2 (proj2 base_medical_priority_table))))
           "unknown_label" H).
Defined.

(** ** The three vital risks *)

Lemma spo2_risk_bounds (spo2 : Z) : 0 <= spo2_risk spo2 <= 3.
Proof. unfold spo2_risk. branches; lia. Qed.

Lemma heart_rate_risk_bounds (hr : Z) : 0 <= heart_rate_risk hr <= 2.
Proof. unfold heart_rate_risk. branches; lia. Qed.

Lemma deterioration_risk_bounds (prev_spo2 curr_spo2 : Z) :
  0 <= deterioration_risk prev_spo2 curr_spo2 <= 2.
Proof. unfold deterioration_risk. cbv zeta. branches; lia. Qed.

Lemma time_to_hospital_risk_bounds (eta_minutes : Z) :
  0 <= time_to_hospital_risk eta_minutes <= 2.
Proof. unfold time_to_hospital_risk. branches; lia. Qed.

(** C9: the SpO2 risk is 3 below 85, 2 on [85,90), 1 on [90,94) and 0 from
    94 on; it never increases with the saturation, and it strictly
    decreases whenever the two saturations are separated by one of the band
    boundaries 85, 90, 94. *)
Theorem spo2_risk_bands (s1 s2 : Z) :
  (s1 < 85 -> spo2_risk s1 = 3)
  /\ (85 <= s1 < 90 -> spo2_risk s1 = 2)
  /\ (90 <= s1 < 94 -> spo2_risk s1 = 1)
  /\ (94 <= s1 -> spo2_risk s1 = 0)
  /\ (s1 <= s2 -> spo2_risk s1 >= spo2_risk s2)
  /\ (forall boundary : Z,
        boundary ∈ [85; 90; 94] -> s1 < boundary <= s2 ->
        spo2_risk s1 > spo2_risk s2).
Proof.
  repeat split; try (intros; unfold spo2_risk; branches; lia).
  intros boundary Hb Hsep.
  repeat (apply elem_of_cons in Hb as [->|Hb];
          [unfold spo2_risk; branches; lia|]).
  by apply elem_of_nil in Hb.
Qed.

Lemma spo2_risk_bands_witness :
  spo2_risk 84 = 3 /\ spo2_risk 87 = 2 /\ spo2_risk 92 = 1 /\ spo2_risk 97 = 0
  /\ spo2_risk 84 >= spo2_risk 85
  /\ spo2_risk 89 > spo2_risk 90.
Proof.
  split; [apply (proj1 (spo2_risk_bands 84 85)); lia|].
  split; [apply (proj1 (proj2 (spo2_risk_bands 87 87))); lia|].
  split; [apply (proj1 (proj2 (proj2 (spo2_risk_bands 92 92)))); lia|].
  split; [apply (proj1 (proj2 (proj2 (proj2 (spo2_risk_bands 97 97))))); lia|].
  split; [apply (proj1 (proj2 (proj2 (proj2 (proj2 (spo2_risk_bands 84 85))))));
          lia|].
  apply (proj2 (proj2 (proj2 (proj2 (proj2 (spo2_risk_bands 89 90))))) 90);
    [apply list_elem_of_further, list_elem_of_here | lia].
Defined.

(** C7: the heart-rate risk is 2 when hr < 40 or hr > 130, 1 when
    110 < hr <= 130 and 0 otherwise.  A value above 130 also exceeds 110 and
    still yields 2, so the result 1 occurs exactly for 110 < hr <= 130. *)
Theorem heart_rate_risk_bands (hr : Z) :
  (hr < 40 \/ hr > 130 -> heart_rate_risk hr = 2)
  /\ (110 < hr <= 130 -> heart_rate_risk hr = 1)
  /\ (~ (hr < 40 \/ hr > 130) -> ~ (110 < hr <= 130) -> heart_rate_risk hr = 0)
  /\ (hr > 130 -> hr > 110 /\ heart_rate_risk hr = 2)
  /\ (heart_rate_risk hr = 1 <-> 110 < hr <= 130).
Proof.
  unfold heart_rate_risk. branches; repeat split; intros; lia.
Qed.

Lemma heart_rate_risk_bands_witness :
  heart_rate_risk 9999 = 2 /\ heart_rate_risk 39 = 2
  /\ heart_rate_risk 130 = 1 /\ heart_rate_risk 110 = 0
  /\ (131 > 110 /\ heart_rate_risk 131 = 2).
Proof.
  split; [apply (proj1 (heart_rate_risk_bands 9999)); lia|].
  split; [apply (proj1 (heart_rate_risk_bands 39)); lia|].
  split; [apply (proj1 (proj2 (heart_rate_risk_bands 130))); lia|].
  split; [apply (proj1 (proj2 (proj2 (heart_rate_risk_bands 110)))); lia|].
  apply (proj1 (proj2 (proj2 (proj2 (heart_rate_risk_bands 131))))); lia.
Defined.

(** C8: with drop = previous_spo2 - spo2, the deterioration risk is 2 when
    drop >= 5, 1 when 2 <= drop < 5 and 0 otherwise; an improved saturation
    (previous_spo2 < spo2) gives exactly 0, and the risk is never negative. *)
Theorem deterioration_risk_bands (previous_spo2 spo2 : Z) :
  (previous_spo2 - spo2 >= 5 -> deterioration_risk previous_spo2 spo2 = 2)
  /\ (2 <= previous_spo2 - spo2 < 5 -> deterioration_risk previous_spo2 spo2 = 1)
  /\ (previous_spo2 - spo2 < 2 -> deterioration_risk previous_spo2 spo2 = 0)
  /\ (previous_spo2 < spo2 -> deterioration_risk previous_spo2 spo2 = 0)
  /\ 0 <= deterioration_risk previous_spo2 spo2.
Proof.
  unfold deterioration_risk. cbv zeta.
  repeat split; intros; branches; lia.
Qed.

Lemma deterioration_risk_bands_witness :
  deterioration_risk 98 93 = 2 /\ deterioration_risk 96 94 = 1
  /\ deterioration_risk 97 96 = 0 /\ deterioration_risk 90 98 = 0.
Proof.
  split; [apply (proj1 (deterioration_risk_bands 98 93)); lia|].
  split; [apply (proj1 (proj2 (deterioration_risk_bands 96 94))); lia|].
  split; [apply (proj1 (proj2 (proj2 (deterioration_risk_bands 97 96)))); lia|].
  apply (proj1 (proj2 (proj2 (proj2 (deterioration_risk_bands 90 98))))); lia.
Defined.

(** ** Vital risk aggregate *)

(** C2: the vital risk aggregate is the sum of the SpO2, heart-rate and
    deterioration risks clamped to at most 5: it equals the sum when the sum
    is at most 5 and is 5 otherwise, so it never exceeds 5; when all three
    risks are maximal (hr < 40 or hr > 130, spo2 < 85, drop >= 5) the raw sum
    is 7 and the aggregate is 5. *)
Theorem vital_risk_score_clamped (hr spo2 prev_spo2 : Z) :
  vital_risk_score hr spo2 prev_spo2
  = Z.min (spo2_risk spo2 + heart_rate_risk hr
           + deterioration_risk prev_spo2 spo2) 5
  /\ (spo2_risk spo2 + heart_rate_risk hr
      + deterioration_risk prev_spo2 spo2 <= 5 ->
      vital_risk_score hr spo2 prev_spo2
      = spo2_risk spo2 + heart_rate_risk hr
        + deterioration_risk prev_spo2 spo2)
  /\ (spo2_risk spo2 + heart_rate_risk hr
      + deterioration_risk prev_spo2 spo2 > 5 ->
      vital_risk_score hr spo2 prev_spo2 = 5)
  /\ vital_risk_score hr spo2 prev_spo2 <= 5
  /\ (hr < 40 \/ hr > 130 -> spo2 < 85 -> prev_spo2 - spo2 >= 5 ->
      spo2_risk spo2 + heart_rate_risk hr
      + deterioration_risk prev_spo2 spo2 = 7
      /\ vital_risk_score hr spo2 prev_spo2 = 5).
Proof.
  unfold vital_risk_score. cbv zeta.
  split; [reflexivity|].
  split; [intros; lia|].
  split; [intros; lia|].
  split; [lia|].
  intros Hhr Hspo2 Hdrop.
  unfold spo2_risk, heart_rate_risk, deterioration_risk. cbv zeta.
  branches; lia.
Qed.

Lemma vital_risk_score_clamped_witness :
  vital_risk_score 100 93 98 = spo2_risk 93 + heart_rate_risk 100
                               + deterioration_risk 98 93
  /\ vital_risk_score 150 87 98 = 5
  /\ (spo2_risk 80 + heart_rate_risk 150 + deterioration_risk 90 80 = 7
      /\ vital_risk_score 150 80 90 = 5).
Proof.
  split; [apply (proj1 (proj2 (vital_risk_score_clamped 100 93 98)));
          vm_compute; discriminate|].
  split; [apply (proj1 (proj2 (proj2 (vital_risk_score_clamped 150 87 98))));
          vm_compute; reflexivity|].
  apply (proj2 (proj2 (proj2 (proj2 (vital_risk_score_clamped 150 80 90)))));
    lia.
Defined.

Lemma vital_risk_score_bounds (hr spo2 prev_spo2 : Z) :
  0 <= vital_risk_score hr spo2 prev_spo2 <= 5.
Proof.
  unfold vital_risk_score. cbv zeta.
  pose proof (spo2_risk_bounds spo2).
  pose proof (heart_rate_risk_bounds hr).
  pose proof (deterioration_risk_bounds prev_spo2 spo2).
  lia.
Qed.

(** ** Priority composer *)

(** C1: for every label and all integer inputs the score lies in [0,10]:
    it is the sum of base severity, vital risk and transit risk clamped to
    at most 10 (the sum itself when that is at most 10, and 10 otherwise:
    truncated, not rescaled), whatever the magnitudes, for instance with
    heart_rate = 9999. *)
Theorem calculate_priority_saturates
    (emergency_type : string) (hr spo2 prev_spo2 eta : Z) :
  0 <= calculate_priority emergency_type hr spo2 prev_spo2 eta <= 10
  /\ calculate_priority emergency_type hr spo2 prev_spo2 eta
     = Z.min (base_medical_priority emergency_type
              + vital_risk_score hr spo2 prev_spo2
              + time_to_hospital_risk eta) 10
  /\ (base_medical_priority emergency_type
      + vital_risk_score hr spo2 prev_spo2
      + time_to_hospital_risk eta <= 10 ->
      calculate_priority emergency_type hr spo2 prev_spo2 eta
      = base_medical_priority emergency_type
        + vital_risk_score hr spo2 prev_spo2
        + time_to_hospital_risk eta)
  /\ (base_medical_priority emergency_type
      + vital_risk_score hr spo2 prev_spo2
      + time_to_hospital_risk eta > 10 ->
      calculate_priority emergency_type hr spo2 prev_spo2 eta = 10)
  /\ 0 <= calculate_priority emergency_type 9999 spo2 prev_spo2 eta <= 10.
Proof.
  unfold calculate_priority. cbv zeta.
  pose proof (base_medical_priority_bounds emergency_type).
  pose proof (vital_risk_score_bounds hr spo2 prev_spo2).
  pose proof (vital_risk_score_bounds 9999 spo2 prev_spo2).
  pose proof (time_to_hospital_risk_bounds eta).
  repeat split; intros; lia.
Qed.

Lemma calculate_priority_saturates_witness :
  calculate_priority "stroke" 100 93 98 9
  = base_medical_priority "stroke" + vital_risk_score 100 93 98
    + time_to_hospital_risk 9
  /\ calculate_priority "cardiac_arrest" 9999 80 90 20 = 10.
Proof.
  split.
  - apply (proj1 (proj2 (proj2
             (calculate_priority_saturates "stroke" 100 93 98 9)))).
    vm_compute. discriminate.
  - apply (proj1 (proj2 (proj2 (proj2
             (calculate_priority_saturates "cardiac_arrest" 9999 80 90 20))))).
    vm_compute. reflexivity.
Defined.

(** C10: through the entry point the score is always at least 1, hence
    never 0: the smallest table value is 1 (minor_injury), the default for
    an unknown label is 2, and the vital and transit risks are non-negative.
    The bound is reached. *)
Theorem calculate_priority_at_least_1
    (emergency_type : string) (hr spo2 prev_spo2 eta : Z) :
  1 <= calculate_priority emergency_type hr spo2 prev_spo2 eta
  /\ calculate_priority emergency_type hr spo2 prev_spo2 eta <> 0
  /\ 1 <= base_medical_priority emergency_type
  /\ map_Forall (fun _ severity => 1 <= severity) priority_map
  /\ (emergency_type ∉ known_emergency_types ->
      base_medical_priority emergency_type = 2)
  /\ 0 <= spo2_risk spo2
  /\ 0 <= heart_rate_risk hr
  /\ 0 <= deterioration_risk prev_spo2 spo2
  /\ 0 <= vital_risk_score hr spo2 prev_spo2
  /\ 0 <= time_to_hospital_risk eta
  /\ calculate_priority "minor_injury" 75 97 97 5 = 1.
Proof.
  pose proof (base_medical_priority_bounds emergency_type).
  pose proof (spo2_risk_bounds spo2).
  pose proof (heart_rate_risk_bounds hr).
  pose proof (deterioration_risk_bounds prev_spo2 spo2).
  pose proof (vital_risk_score_bounds hr spo2 prev_spo2).
  pose proof (time_to_hospital_risk_bounds eta).
  assert (1 <= calculate_priority emergency_type hr spo2 prev_spo2 eta)
    by (unfold calculate_priority; cbv zeta; lia).
  repeat split; try lia; try reflexivity;
    try apply base_medical_priority_unknown.
  intros label severity Hlookup.
  pose proof (base_medical_priority_bounds label) as Hb.
  unfold base_medical_priority, Py.dict_get in Hb.
  rewrite Hlookup in Hb. lia.
Qed.

Lemma calculate_priority_at_least_1_witness :
  ("unknown_label" ∉ known_emergency_types)
  /\ base_medical_priority "unknown_label" = 2
  /\ 1 <= calculate_priority "unknown_label" 115 92 92 10.
Proof.
  assert (H : ("unknown_label" ∉ known_emergency_types)).
  { apply (proj1 (priority_map_absent "unknown_label")). vm_compute. reflexivity. }
  split; [exact H|].
  split.
  - exact (proj1 (proj2 (proj2 (proj2 (proj2
             (calculate_priority_at_least_1 "unknown_label" 115 92 92 10)))))
           H).
  - exact (proj1 (calculate_priority_at_least_1 "unknown_label" 115 92 92 10)).
Defined.

(** ** Category mapper *)

Lemma categories_NoDup : NoDup categories.
Proof. compute_done. Qed.

(** C3: the category mapper is total and tests the thresholds from the
    top: score >= 9 gives CRITICAL, otherwise >= 7 VERY HIGH, otherwise >= 5
    HIGH, otherwise >= 3 MEDIUM, otherwise LOW.  Its result is always one of
    the five pairwise distinct categories (in particular on [0,10]), and a
    smaller score never gets a more severe category. *)
Theorem priority_category_total_monotone (score score' : Z) :
  (score >= 9 -> priority_category score = "CRITICAL")
  /\ (7 <= score < 9 -> priority_category score = "VERY HIGH")
  /\ (5 <= score < 7 -> priority_category score = "HIGH")
  /\ (3 <= score < 5 -> priority_category score = "MEDIUM")
  /\ (score < 3 -> priority_category score = "LOW")
  /\ (0 <= score <= 10 -> priority_category score ∈ categories)
  /\ priority_category score ∈ categories
  /\ NoDup categories
  /\ (score' <= score ->
      severity_rank (priority_category score')
      <= severity_rank (priority_category score)).
Proof.
  assert (Hin : forall s, priority_category s ∈ categories).
  { intros s. unfold priority_category.
    branches; compute_done. }
  split_and!.
  1-5: intros; unfold priority_category; branches; lia || reflexivity.
  - intros _. apply Hin.
  - apply Hin.
  - apply categories_NoDup.
  - intros Hle. unfold priority_category.
    branches; (lia || (vm_compute; discriminate)).
Qed.

Lemma priority_category_total_monotone_witness :
  priority_category 10 = "CRITICAL"
  /\ priority_category 8 = "VERY HIGH"
  /\ priority_category 5 = "HIGH"
  /\ priority_category 3 = "MEDIUM"
  /\ priority_category 0 = "LOW"
  /\ (priority_category 7 ∈ categories)
  /\ severity_rank (priority_category 6) <= severity_rank (priority_category 7).
Proof.
  split; [apply (proj1 (priority_category_total_monotone 10 10)); lia|].
  split; [apply (proj1 (proj2 (priority_category_total_monotone 8 8))); lia|].
  split; [apply (proj1 (proj2 (proj2
                   (priority_category_total_monotone 5 5)))); lia|].
  split; [apply (proj1 (proj2 (proj2 (proj2
                   (priority_category_total_monotone 3 3))))); lia|].
  split; [apply (proj1 (proj2 (proj2 (proj2 (proj2
                   (priority_category_total_monotone 0 0)))))); lia|].
  split; [apply (proj1 (proj2 (proj2 (proj2 (proj2 (proj2
                   (priority_category_total_monotone 7 7))))))); lia|].
  apply (proj2 (proj2 (proj2 (proj2 (proj2 (proj2 (proj2 (proj2
           (priority_category_total_monotone 7 6))))))))); lia.
Defined.

(** ** Action mapper *)

Lemma decisions_absent (priority_level : string) :
  decisions !! priority_level = None <-> priority_level ∉ categories.
Proof. apply dict_literal_lookup_None. Qed.

Lemma traffic_decision_outside (priority_level : string) :
  priority_level ∉ categories ->
  traffic_decision priority_level = Py.Raise (Py.KeyError priority_level).
Proof.
  intros H. apply dict_getitem_absent. by apply decisions_absent.
Qed.

(** The category computed from any score has an action: on the path
    score -> category -> action the subscript never raises. *)
Lemma traffic_decision_of_priority_category (score : Z) :
  exists action : string,
    traffic_decision (priority_category score) = Py.Ok action /\ action ∈ actions.
Proof.
  unfold priority_category.
  branches; eexists; (split; [vm_compute; reflexivity | compute_done]).
Qed.

(** C4: on the five categories the action mapper returns exactly the
    advisory strings of the literal table; these are non-empty and pairwise
    distinct, every category has an action and every action comes from
    exactly one category (a bijection between the two five-element sets);
    on any other string the lookup fails with a KeyError instead of
    returning a value. *)
Theorem traffic_decision_table :
  traffic_decision "CRITICAL"
  = Py.Ok "Immediate green corridor (override all signals)"
  /\ traffic_decision "VERY HIGH"
     = Py.Ok "Green corridor with maximum preference"
  /\ traffic_decision "HIGH" = Py.Ok "Green at next signal cycle"
  /\ traffic_decision "MEDIUM" = Py.Ok "Partial priority at intersections"
  /\ traffic_decision "LOW" = Py.Ok "Normal traffic flow"
  /\ (forall category : string,
        category ∈ categories ->
        exists action : string,
          traffic_decision category = Py.Ok action
          /\ action ∈ actions /\ action <> "")
  /\ (forall c1 c2 : string,
        c1 ∈ categories -> c2 ∈ categories ->
        traffic_decision c1 = traffic_decision c2 -> c1 = c2)
  /\ (forall action : string,
        action ∈ actions ->
        exists category : string,
          category ∈ categories /\ traffic_decision category = Py.Ok action)
  /\ NoDup categories /\ NoDup actions
  /\ (forall priority_level : string,
        priority_level ∉ categories ->
        traffic_decision priority_level
        = Py.Raise (Py.KeyError priority_level)).
Proof.
  split_and!; try (vm_compute; reflexivity).
  - intros category Hc. unfold categories in Hc.
    repeat (apply elem_of_cons in Hc as [->|Hc];
            [eexists; split_and!;
             [vm_compute; reflexivity | compute_done | discriminate]|]).
    by apply elem_of_nil in Hc.
  - intros c1 c2 H1 H2. unfold categories in H1, H2.
    repeat (apply elem_of_cons in H1 as [->|H1];
            [repeat (apply elem_of_cons in H2 as [->|H2];
                     [vm_compute; congruence|]);
             by apply elem_of_nil in H2|]).
    by apply elem_of_nil in H1.
  - intros action Ha. unfold actions in Ha.
    repeat (apply elem_of_cons in Ha as [->|Ha];
            [first [ exists "CRITICAL"; split; [compute_done|]; vm_compute; reflexivity
                   | exists "VERY HIGH"; split; [compute_done|]; vm_compute; reflexivity
                   | exists "HIGH"; split; [compute_done|]; vm_compute; reflexivity
                   | exists "MEDIUM"; split; [compute_done|]; vm_compute; reflexivity
                   | exists "LOW"; split; [compute_done|]; vm_compute; reflexivity ]|]).
    by apply elem_of_nil in Ha.
  - apply categories_NoDup.
  - compute_done.
  - apply traffic_decision_outside.
Qed.

Lemma traffic_decision_table_witness :
  (exists action : string,
     traffic_decision "HIGH" = Py.Ok action /\ action ∈ actions /\ action <> "")
  /\ (exists category : string,
        category ∈ categories
        /\ traffic_decision category = Py.Ok "Normal traffic flow")
  /\ (("critical" ∉ categories)
      /\ traffic_decision "critical" = Py.Raise (Py.KeyError "critical")).
Proof.
  assert (Hin : ("HIGH" ∈ categories)) by compute_done.
  assert (Hact : ("Normal traffic flow" ∈ actions)) by compute_done.
  assert (Hout : ("critical" ∉ categories)).
  { apply (proj1 (decisions_absent "critical")). vm_compute. reflexivity. }
  split; [exact (proj1 (proj2 (proj2 (proj2 (proj2 (proj2
                   traffic_decision_table))))) "HIGH" Hin)|].
  split; [exact (proj1 (proj2 (proj2 (proj2 (proj2 (proj2 (proj2 (proj2
                   traffic_decision_table))))))) "Normal traffic flow" Hact)|].
  split; [exact Hout|].
  exact (proj2 (proj2 (proj2 (proj2 (proj2 (proj2 (proj2 (proj2 (proj2 (proj2
           traffic_decision_table))))))))) "critical" Hout).
Defined.

(** ** A concrete scenario *)

(** C5: for cardiac_arrest with hr 150, spo2 80, previous spo2 90 and eta
    20 the base severity is 5, the SpO2, heart-rate and deterioration risks
    are 3, 2 and 2 (sum 7) with the vital aggregate clamped to 5, the
    transit risk is 2, the raw sum 12 is clamped to the score 10, and the
    category is CRITICAL. *)
Theorem scenario_cardiac_arrest :
  base_medical_priority "cardiac_arrest" = 5
  /\ spo2_risk 80 = 3
  /\ heart_rate_risk 150 = 2
  /\ deterioration_risk 90 80 = 2
  /\ spo2_risk 80 + heart_rate_risk 150 + deterioration_risk 90 80 = 7
  /\ vital_risk_score 150 80 90 = 5
  /\ time_to_hospital_risk 20 = 2
  /\ base_medical_priority "cardiac_arrest" + vital_risk_score 150 80 90
     + time_to_hospital_risk 20 = 12
  /\ calculate_priority "cardiac_arrest" 150 80 90 20 = 10
  /\ priority_category (calculate_priority "cardiac_arrest" 150 80 90 20)
     = "CRITICAL".
Proof. split_and!; vm_compute; reflexivity. Qed.

(** * Further properties of the scoring functions *)

Lemma spo2_risk_antitone (s1 s2 : Z) : s1 <= s2 -> spo2_risk s2 <= spo2_risk s1.
Proof. intros. unfold spo2_risk. branches; lia. Qed.

Lemma deterioration_risk_monotone (p1 c1 p2 c2 : Z) :
  p1 - c1 <= p2 - c2 -> deterioration_risk p1 c1 <= deterioration_risk p2 c2.
Proof. intros. unfold deterioration_risk. cbv zeta. branches; lia. Qed.

Lemma time_to_hospital_risk_monotone (eta eta' : Z) :
  eta <= eta' -> time_to_hospital_risk eta <= time_to_hospital_risk eta'.
Proof. intros. unfold time_to_hospital_risk. branches; lia. Qed.

(** X1: the transit risk is 2 for eta > 15, 1 for 8 < eta <= 15 and 0 for
    eta <= 8 (negative values included); it never decreases when the
    estimated time grows. *)
Theorem time_to_hospital_risk_bands (eta eta' : Z) :
  (eta > 15 -> time_to_hospital_risk eta = 2)
  /\ (8 < eta <= 15 -> time_to_hospital_risk eta = 1)
  /\ (eta <= 8 -> time_to_hospital_risk eta = 0)
  /\ (eta <= eta' -> time_to_hospital_risk eta <= time_to_hospital_risk eta').
Proof.
  split_and!; intros; unfold time_to_hospital_risk; branches; lia.
Qed.

Lemma time_to_hospital_risk_bands_witness :
  time_to_hospital_risk 16 = 2 /\ time_to_hospital_risk 15 = 1
  /\ time_to_hospital_risk (-3) = 0
  /\ time_to_hospital_risk 8 <= time_to_hospital_risk 9.
Proof.
  split; [apply (proj1 (time_to_hospital_risk_bands 16 16)); lia|].
  split; [apply (proj1 (proj2 (time_to_hospital_risk_bands 15 15))); lia|].
  split; [apply (proj1 (proj2 (proj2 (time_to_hospital_risk_bands (-3) 0))));
          lia|].
  apply (proj2 (proj2 (proj2 (time_to_hospital_risk_bands 8 9)))); lia.
Defined.

(** X2: the category of a score determines the score's band: CRITICAL is
    returned exactly for score >= 9, VERY HIGH exactly for 7 <= score < 9,
    HIGH for 5 <= score < 7, MEDIUM for 3 <= score < 5 and LOW exactly for
    score < 3. *)
Theorem priority_category_inverse (score : Z) :
  (priority_category score = "CRITICAL" <-> score >= 9)
  /\ (priority_category score = "VERY HIGH" <-> 7 <= score < 9)
  /\ (priority_category score = "HIGH" <-> 5 <= score < 7)
  /\ (priority_category score = "MEDIUM" <-> 3 <= score < 5)
  /\ (priority_category score = "LOW" <-> score < 3).
Proof.
  unfold priority_category.
  branches; split_and!; split; intros; first [lia | discriminate | reflexivity].
Qed.

(** X3: the action mapper never fails on the output of the category
    mapper: for every integer score the lookup succeeds, and the action is
    the table's entry for the score's band. *)
Theorem traffic_decision_of_score (score : Z) :
  (exists action : string,
     traffic_decision (priority_category score) = Py.Ok action
     /\ action ∈ actions)
  /\ (score >= 9 ->
      traffic_decision (priority_category score)
      = Py.Ok "Immediate green corridor (override all signals)")
  /\ (7 <= score < 9 ->
      traffic_decision (priority_category score)
      = Py.Ok "Green corridor with maximum preference")
  /\ (5 <= score < 7 ->
      traffic_decision (priority_category score)
      = Py.Ok "Green at next signal cycle")
  /\ (3 <= score < 5 ->
      traffic_decision (priority_category score)
      = Py.Ok "Partial priority at intersections")
  /\ (score < 3 ->
      traffic_decision (priority_category score) = Py.Ok "Normal traffic flow").
Proof.
  split; [apply traffic_decision_of_priority_category|].
  unfold priority_category.
  branches; split_and!; intros; first [lia | vm_compute; reflexivity].
Qed.

Lemma traffic_decision_of_score_witness :
  traffic_decision (priority_category 10)
  = Py.Ok "Immediate green corridor (override all signals)"
  /\ traffic_decision (priority_category 7)
     = Py.Ok "Green corridor with maximum preference"
  /\ traffic_decision (priority_category 6) = Py.Ok "Green at next signal cycle"
  /\ traffic_decision (priority_category 3)
     = Py.Ok "Partial priority at intersections"
  /\ traffic_decision (priority_category (-20)) = Py.Ok "Normal traffic flow".
Proof.
  split; [apply (proj1 (proj2 (traffic_decision_of_score 10))); lia|].
  split; [apply (proj1 (proj2 (proj2 (traffic_decision_of_score 7)))); lia|].
  split; [apply (proj1 (proj2 (proj2 (proj2
                   (traffic_decision_of_score 6))))); lia|].
  split; [apply (proj1 (proj2 (proj2 (proj2 (proj2
                   (traffic_decision_of_score 3)))))); lia|].
  apply (proj2 (proj2 (proj2 (proj2 (proj2
           (traffic_decision_of_score (-20))))))); lia.
Defined.

Lemma vital_risk_score_monotone (hr spo2 prev_spo2 spo2' prev_spo2' : Z) :
  spo2' <= spo2 -> prev_spo2 <= prev_spo2' ->
  vital_risk_score hr spo2 prev_spo2 <= vital_risk_score hr spo2' prev_spo2'.
Proof.
  intros Hs Hp. unfold vital_risk_score. cbv zeta.
  pose proof (spo2_risk_antitone spo2' spo2 Hs).
  pose proof (deterioration_risk_monotone prev_spo2 spo2 prev_spo2' spo2').
  lia.
Qed.

(** X4: worse readings never lower the score: with the same label and
    heart rate, a lower (or equal) saturation, a higher (or equal) previous
    saturation and a longer (or equal) time to hospital give a score at
    least as high. *)
Theorem calculate_priority_monotone
    (emergency_type : string) (hr spo2 prev_spo2 eta spo2' prev_spo2' eta' : Z) :
  spo2' <= spo2 -> prev_spo2 <= prev_spo2' -> eta <= eta' ->
  calculate_priority emergency_type hr spo2 prev_spo2 eta
  <= calculate_priority emergency_type hr spo2' prev_spo2' eta'.
Proof.
  intros Hs Hp He. unfold calculate_priority. cbv zeta.
  pose proof (vital_risk_score_monotone hr spo2 prev_spo2 spo2' prev_spo2' Hs Hp).
  pose proof (time_to_hospital_risk_monotone eta eta' He).
  lia.
Qed.

Lemma calculate_priority_monotone_witness :
  calculate_priority "trauma" 100 95 95 5
  <= calculate_priority "trauma" 100 88 97 12.
Proof.
  apply (calculate_priority_monotone "trauma" 100 95 95 5 88 97 12); lia.
Defined.

(** X5: the score is never below the base severity of the label and never
    more than 7 above it; hence an emergency of base severity 3 or more is
    never classed LOW, and a minor injury is never classed CRITICAL. *)
Theorem calculate_priority_around_base
    (emergency_type : string) (hr spo2 prev_spo2 eta : Z) :
  base_medical_priority emergency_type
  <= calculate_priority emergency_type hr spo2 prev_spo2 eta
  <= base_medical_priority emergency_type + 7
  /\ (3 <= base_medical_priority emergency_type ->
      priority_category (calculate_priority emergency_type hr spo2 prev_spo2 eta)
      <> "LOW")
  /\ priority_category (calculate_priority "minor_injury" hr spo2 prev_spo2 eta)
     <> "CRITICAL".
Proof.
  assert (Hb : forall e,
             base_medical_priority e <= calculate_priority e hr spo2 prev_spo2 eta
             <= base_medical_priority e + 7).
  { intros e. unfold calculate_priority. cbv zeta.
    pose proof (base_medical_priority_bounds e).
    pose proof (vital_risk_score_bounds hr spo2 prev_spo2).
    pose proof (time_to_hospital_risk_bounds eta).
    lia. }
  split; [apply Hb|]. split.
  - intros H3. pose proof (Hb emergency_type). unfold priority_category.
    branches; first [lia | discriminate].
  - pose proof (Hb "minor_injury") as Hm.
    change (base_medical_priority "minor_injury") with 1 in Hm.
    unfold priority_category. branches; first [lia | discriminate].
Qed.

Lemma calculate_priority_around_base_witness :
  priority_category (calculate_priority "trauma" 70 99 99 0) <> "LOW".
Proof.
  apply (proj1 (proj2 (calculate_priority_around_base "trauma" 70 99 99 0))).
  vm_compute. discriminate.
Defined.

(** X6: the vital risk is 0 exactly for unremarkable vitals: heart rate in
    [40,110], saturation at least 94 and a drop of less than 2 points. *)
Theorem vital_risk_score_zero (hr spo2 prev_spo2 : Z) :
  vital_risk_score hr spo2 prev_spo2 = 0
  <-> 40 <= hr <= 110 /\ 94 <= spo2 /\ prev_spo2 - spo2 < 2.
Proof.
  unfold vital_risk_score, spo2_risk, heart_rate_risk, deterioration_risk.
  cbv zeta. branches; lia.
Qed.

(** * The simulated sensor *)

Lemma randint_run (a b : Z) (w : PyIO.world) :
  a <= b ->
  PyIO.randint a b w
  = (PyIO.Returned (a + PyIO.entropy w (PyIO.draws w) mod (b - a + 1)),
     PyIO.World (PyIO.entropy w) (S (PyIO.draws w))
       (PyIO.stdout w) (PyIO.slept w))
  /\ a <= a + PyIO.entropy w (PyIO.draws w) mod (b - a + 1) <= b.
Proof.
  intros Hab. unfold PyIO.randint.
  destruct (Z.ltb_spec b a); [lia|]. split; [reflexivity|].
  pose proof (Z.mod_pos_bound (PyIO.entropy w (PyIO.draws w)) (b - a + 1)).
  lia.
Qed.

Lemma generate_fake_vitals_run (prev_spo2 : Z) (w : PyIO.world) :
  generate_fake_vitals prev_spo2 w
  = (PyIO.Returned
       (80 + PyIO.entropy w (PyIO.draws w) mod 71,
        Z.max 80 (Z.min 98
          (prev_spo2 + (-4 + PyIO.entropy w (S (PyIO.draws w)) mod 7)))),
     PyIO.World (PyIO.entropy w) (S (S (PyIO.draws w)))
       (PyIO.stdout w) (PyIO.slept w)).
Proof. reflexivity. Qed.

(** X7: whatever the previous reading and the state of the generator, the
    simulated sensor raises nothing and returns a heart rate in [80,150]
    and a saturation in [80,98]; it consumes two random draws and neither
    prints nor sleeps. *)
Theorem generate_fake_vitals_ranges (prev_spo2 : Z) (w : PyIO.world) :
  exists heart_rate spo2 : Z,
    generate_fake_vitals prev_spo2 w
    = (PyIO.Returned (heart_rate, spo2),
       PyIO.World (PyIO.entropy w) (2 + PyIO.draws w)
         (PyIO.stdout w) (PyIO.slept w))
    /\ 80 <= heart_rate <= 150
    /\ 80 <= spo2 <= 98.
Proof.
  rewrite generate_fake_vitals_run. do 2 eexists.
  split; [reflexivity|].
  pose proof (Z.mod_pos_bound (PyIO.entropy w (PyIO.draws w)) 71).
  lia.
Qed.

(** X8: when the previous reading is itself in [80,98], the new
    saturation is at most 4 below and at most 2 above it, so its
    deterioration risk is at most 1; and since the simulated heart rate is
    at least 80, its risk is 2 only above 130.  A previous reading of 102
    or more gives 98, one of 76 or less gives 80. *)
Theorem generate_fake_vitals_step (prev_spo2 : Z) (w : PyIO.world) :
  exists heart_rate spo2 : Z,
    (generate_fake_vitals prev_spo2 w).1 = PyIO.Returned (heart_rate, spo2)
    /\ (80 <= prev_spo2 <= 98 ->
        prev_spo2 - 4 <= spo2 <= prev_spo2 + 2
        /\ deterioration_risk prev_spo2 spo2 <= 1)
    /\ (heart_rate_risk heart_rate = 2 <-> heart_rate > 130)
    /\ (102 <= prev_spo2 -> spo2 = 98)
    /\ (prev_spo2 <= 76 -> spo2 = 80).
Proof.
  rewrite generate_fake_vitals_run. do 2 eexists.
  split; [reflexivity|].
  pose proof (Z.mod_pos_bound (PyIO.entropy w (PyIO.draws w)) 71).
  pose proof (Z.mod_pos_bound (PyIO.entropy w (S (PyIO.draws w))) 7).
  split_and!; try (intros; lia).
  - intros Hprev. split; [lia|].
    unfold deterioration_risk. cbv zeta. branches; lia.
  - unfold heart_rate_risk. branches; lia.
Qed.

(** X9: every heart rate in [80,150] and every step in [-4,2] can occur:
    for each such pair some generator state makes the sensor return that
    heart rate and the previous reading plus that step, clamped to
    [80,98]. *)
Theorem generate_fake_vitals_complete (prev_spo2 heart_rate delta : Z) :
  80 <= heart_rate <= 150 -> -4 <= delta <= 2 ->
  exists w : PyIO.world,
    (generate_fake_vitals prev_spo2 w).1
    = PyIO.Returned (heart_rate, Z.max 80 (Z.min 98 (prev_spo2 + delta))).
Proof.
  intros Hhr Hd.
  exists (PyIO.World
            (fun i => match i with O => heart_rate - 80 | _ => delta + 4 end)
            0 [] 0).
  rewrite generate_fake_vitals_run. simpl PyIO.entropy. simpl PyIO.draws.
  cbv beta iota. unfold fst.
  rewrite (Z.mod_small (heart_rate - 80) 71) by lia.
  rewrite (Z.mod_small (delta + 4) 7) by lia.
  do 3 f_equal; lia.
Qed.

Lemma generate_fake_vitals_complete_witness :
  exists w : PyIO.world,
    (generate_fake_vitals 96 w).1 = PyIO.Returned (150, 92).
Proof.
  apply (generate_fake_vitals_complete 96 150 (-4)); lia.
Defined.

Lemma generate_fake_vitals_step_witness :
  exists heart_rate spo2 : Z,
    (generate_fake_vitals 96 (PyIO.World (fun _ => 0) 0 [] 0)).1
    = PyIO.Returned (heart_rate, spo2)
    /\ 92 <= spo2 <= 98.
Proof.
  destruct (generate_fake_vitals_step 96 (PyIO.World (fun _ => 0) 0 [] 0))
    as (heart_rate & spo2 & Hrun & Hstep & _).
  exists heart_rate, spo2. split; [exact Hrun|].
  destruct Hstep as [Hstep _]; lia.
Defined.

(** * The simulation loop *)

(** One pass of the loop: it returns the new loop variables, consumes two
    draws, prints the eight lines of its report and sleeps one second. *)
Lemma run_simulation_body_run
    (emergency_type : string) (minute prev_spo2 eta : Z) (w : PyIO.world) :
  exists r : report,
    run_simulation_body emergency_type minute (prev_spo2, eta) w
    = (PyIO.Returned (r_spo2 r, eta - 1),
       PyIO.World (PyIO.entropy w) (S (S (PyIO.draws w)))
         (PyIO.stdout w ++ render r) (PyIO.slept w + 1))
    /\ r_minute r = minute /\ r_eta r = eta
    /\ pass_ok emergency_type prev_spo2 r.
Proof.
  unfold run_simulation_body, mbind, pyio_bind, PyIO.bind.
  rewrite generate_fake_vitals_run. cbv beta iota zeta.
  pose proof (Z.mod_pos_bound (PyIO.entropy w (PyIO.draws w)) 71) as Hhr.
  pose proof (Z.mod_pos_bound (PyIO.entropy w (S (PyIO.draws w))) 7) as Hd.
  set (hr := 80 + _ mod 71) in *.
  set (delta := -4 + _ mod 7) in *.
  set (spo2 := Z.max 80 _).
  destruct (traffic_decision_of_priority_category
              (calculate_priority emergency_type hr spo2 prev_spo2 eta))
    as [action [Hact _]].
  rewrite Hact.
  exists (Report minute hr spo2 eta
            (calculate_priority emergency_type hr spo2 prev_spo2 eta)
            (priority_category
               (calculate_priority emergency_type hr spo2 prev_spo2 eta))
            action).
  split.
  - unfold PyIO.lift, PyIO.print, PyIO.sleep, mret, pyio_ret, PyIO.ret, render.
    cbv beta iota.
    cbn [PyIO.entropy PyIO.draws PyIO.stdout PyIO.slept
         r_minute r_hr r_spo2 r_eta r_priority r_category r_action].
    rewrite <- !app_assoc. reflexivity.
  - unfold pass_ok.
    cbn [r_minute r_hr r_spo2 r_eta r_priority r_category r_action].
    split_and!; try reflexivity; try lia; try exact Hact.
    exists delta. split; [lia | reflexivity].
Qed.

(** The loop over [n] consecutive minutes starting at [m]. *)
Lemma for_each_passes (emergency_type : string) (n : nat) :
  forall (m prev_spo2 eta : Z) (w : PyIO.world),
  exists (reports : list report) (last_spo2 : Z),
    PyIO.for_each (seqZ m (Z.of_nat n)) (run_simulation_body emergency_type)
      (prev_spo2, eta) w
    = (PyIO.Returned (last_spo2, eta - Z.of_nat n),
       PyIO.World (PyIO.entropy w) (2 * n + PyIO.draws w)
         (PyIO.stdout w ++ concat (render <$> reports))
         (PyIO.slept w + Z.of_nat n))
    /\ r_minute <$> reports = seqZ m (Z.of_nat n)
    /\ Forall (fun r => r_minute r + r_eta r = m + eta) reports
    /\ threaded emergency_type prev_spo2 reports.
Proof.
  induction n as [|n IH]; intros m prev_spo2 eta w.
  - exists [], prev_spo2. split_and!; [|done|constructor|done].
    destruct w as [e d out s].
    change (seqZ m (Z.of_nat 0)) with (@nil Z). change (Z.of_nat 0) with 0.
    cbn. rewrite app_nil_r, Z.sub_0_r, Z.add_0_r. reflexivity.
  - rewrite Nat2Z.inj_succ, seqZ_cons by lia.
    rewrite Z.pred_succ.
    destruct (run_simulation_body_run emergency_type m prev_spo2 eta w)
      as (r & Hrun & Hm & He & Hok).
    cbn [PyIO.for_each]. unfold PyIO.bind at 1. rewrite Hrun.
    destruct (IH (Z.succ m) (r_spo2 r) (eta - 1)
                (PyIO.World (PyIO.entropy w) (S (S (PyIO.draws w)))
                   (PyIO.stdout w ++ render r) (PyIO.slept w + 1)))
      as (reports & last_spo2 & Hloop & Hms & Hsum & Hthr).
    exists (r :: reports), last_spo2. split_and!.
    + rewrite Hloop.
      cbn [PyIO.entropy PyIO.draws PyIO.stdout PyIO.slept].
      rewrite fmap_cons. cbn [concat]. rewrite <- app_assoc.
      replace (eta - Z.succ (Z.of_nat n)) with (eta - 1 - Z.of_nat n) by lia.
      replace (2 * S n + PyIO.draws w)%nat
        with (2 * n + S (S (PyIO.draws w)))%nat by lia.
      replace (PyIO.slept w + Z.succ (Z.of_nat n))
        with (PyIO.slept w + 1 + Z.of_nat n) by lia.
      reflexivity.
    + rewrite fmap_cons, Hms, Hm. reflexivity.
    + constructor; [lia|].
      eapply Forall_impl; [exact Hsum|]. intros r' Hr'. simpl in Hr'. lia.
    + split; assumption.
Qed.

(** The whole run, from which the theorems below are read off. *)
Lemma run_simulation_run (w : PyIO.world) :
  exists reports : list report,
    run_simulation w
    = (PyIO.Returned tt,
       PyIO.World (PyIO.entropy w) (16 + PyIO.draws w)
         (PyIO.stdout w ++ banner :: concat (render <$> reports))
         (PyIO.slept w + 8))
    /\ r_minute <$> reports = seqZ 1 8
    /\ Forall (fun r => r_minute r + r_eta r = 16) reports
    /\ threaded "stroke" 96 reports.
Proof.
  destruct (for_each_passes "stroke" 8 1 96 15
              (PyIO.World (PyIO.entropy w) (PyIO.draws w)
                 (PyIO.stdout w ++ [banner]) (PyIO.slept w)))
    as (reports & last_spo2 & Hloop & Hms & Hsum & Hthr).
  exists reports. split_and!; [|exact Hms|exact Hsum|exact Hthr].
  unfold run_simulation. cbv zeta.
  unfold mbind, pyio_bind, PyIO.bind at 1 2.
  change (PyIO.print banner w)
    with (PyIO.Returned tt,
          PyIO.World (PyIO.entropy w) (PyIO.draws w)
            (PyIO.stdout w ++ [banner]) (PyIO.slept w)).
  cbv beta iota.
  change (PyIO.range 1 9) with (seqZ 1 (Z.of_nat 8)).
  rewrite Hloop.
  cbn [PyIO.entropy PyIO.draws PyIO.stdout PyIO.slept].
  unfold mret, pyio_ret, PyIO.ret.
  rewrite <- app_assoc. reflexivity.
Qed.



Lemma threaded_Forall (emergency_type : string) (reports : list report) :
  forall prev_spo2 : Z,
    threaded emergency_type prev_spo2 reports ->
    Forall (fun r => exists prev : Z, pass_ok emergency_type prev r) reports.
Proof.
  induction reports as [|r reports IH]; intros prev_spo2 Hthr; [constructor|].
  destruct Hthr as [Hok Hthr]. constructor; [by exists prev_spo2|].
  by apply (IH (r_spo2 r)).
Qed.

Lemma eta_of_minute (total : Z) (reports : list report) :
  Forall (fun r => r_minute r + r_eta r = total) reports ->
  r_eta <$> reports = (fun minute => total - minute) <$> (r_minute <$> reports).
Proof.
  induction 1 as [|r reports Hr _ IH]; [reflexivity|].
  rewrite !fmap_cons, IH. f_equal. lia.
Qed.

(** What a pass of the stroke simulation prints at a minute in 1..8. *)
Lemma stroke_pass_scores (prev_spo2 : Z) (r : report) :
  pass_ok "stroke" prev_spo2 r ->
  r_minute r + r_eta r = 16 -> 1 <= r_minute r <= 8 ->
  4 <= r_priority r <= 10
  /\ (r_minute r <= 7 -> 5 <= r_priority r)
  /\ r_category r <> "LOW"
  /\ r_action r <> "Normal traffic flow".
Proof.
  intros (Hhr & _ & Hp & Hc & Ha) Hsum Hmin.
  assert (Hscore : 4 <= r_priority r <= 10
                   /\ (r_minute r <= 7 -> 5 <= r_priority r)).
  { rewrite Hp. unfold calculate_priority. cbv zeta.
    change (base_medical_priority "stroke") with 4.
    pose proof (vital_risk_score_bounds (r_hr r) (r_spo2 r) prev_spo2).
    pose proof (time_to_hospital_risk_bounds (r_eta r)).
    split; [lia|]. intros H7.
    assert (time_to_hospital_risk (r_eta r) = 1)
      by (unfold time_to_hospital_risk; branches; lia).
    lia. }
  destruct Hscore as [Hrange Hearly]. split_and!; [lia|lia|exact Hearly| |].
  - rewrite Hc. unfold priority_category. branches; first [lia | discriminate].
  - rewrite Hc in Ha. revert Ha. unfold priority_category.
    branches; first [lia | vm_compute; congruence].
Qed.


(** X11: what the simulation prints is the banner followed by the eight
    line blocks of eight reports, for minutes 1 to 8 in order and ETAs 15
    down to 8; every heart rate is in [80,150], every saturation is the
    previous one (96 at first) plus a step in [-4,2] clamped to [80,98],
    every printed score is the priority of the printed vitals for a stroke
    against the previous saturation, and category and action are those of
    the score. *)
Theorem run_simulation_reports (w : PyIO.world) :
  exists reports : list report,
    PyIO.stdout (run_simulation w).2
    = (PyIO.stdout w ++ banner :: concat (render <$> reports))%list
    /\ r_minute <$> reports = [1; 2; 3; 4; 5; 6; 7; 8]
    /\ r_eta <$> reports = [15; 14; 13; 12; 11; 10; 9; 8]
    /\ threaded "stroke" 96 reports.
Proof.
  destruct (run_simulation_run w) as (reports & Hrun & Hms & Hsum & Hthr).
  exists reports. rewrite Hrun. split_and!; [reflexivity|exact Hms| |exact Hthr].
  rewrite (eta_of_minute 16 reports Hsum), Hms. reflexivity.
Qed.

(** X12: every score the stroke simulation prints is in [4,10], and at
    least 5 in minutes 1 to 7 (while the ETA is above 8); the category LOW
    and the action "Normal traffic flow" are never printed. *)
Theorem run_simulation_scores (w : PyIO.world) :
  exists reports : list report,
    PyIO.stdout (run_simulation w).2
    = (PyIO.stdout w ++ banner :: concat (render <$> reports))%list
    /\ Forall (fun r =>
                 4 <= r_priority r <= 10
                 /\ (r_minute r <= 7 -> 5 <= r_priority r)
                 /\ r_category r <> "LOW"
                 /\ r_action r <> "Normal traffic flow") reports.
Proof.
  destruct (run_simulation_run w) as (reports & Hrun & Hms & Hsum & Hthr).
  exists reports. rewrite Hrun. split; [reflexivity|].
  apply threaded_Forall in Hthr.
  assert (Hmin : Forall (fun r => 1 <= r_minute r <= 8) reports).
  { apply Forall_forall. intros r Hr.
    assert (Hin : r_minute r ∈ seqZ 1 8)
      by (rewrite <- Hms; apply list_elem_of_fmap; by exists r).
    apply elem_of_seqZ in Hin. lia. }
  rewrite Forall_forall in Hsum, Hthr, Hmin. apply Forall_forall.
  intros r Hr. destruct (Hthr r Hr) as [prev Hok].
  apply (stroke_pass_scores prev r Hok (Hsum r Hr) (Hmin r Hr)).
Qed.

(** X13: both ends of the score range of the simulation are printed for
    some generator: with heart rate 150 and a falling saturation a score of
    10 (CRITICAL), with heart rate 80 and a steady saturation a score of 4
    (MEDIUM) in the last minute. *)
Theorem run_simulation_extremes :
  (exists w : PyIO.world,
     "  Priority Score    : 10/10" ∈ PyIO.stdout (run_simulation w).2
     /\ "  Priority Level    : CRITICAL" ∈ PyIO.stdout (run_simulation w).2)
  /\ (exists w : PyIO.world,
        "  Priority Score    : 4/10" ∈ PyIO.stdout (run_simulation w).2
        /\ "  Priority Level    : MEDIUM" ∈ PyIO.stdout (run_simulation w).2).
Proof.
  split.
  - exists (PyIO.World (fun i => if Nat.even i then 70 else 0) 0 [] 0).
    split; compute_done.
  - exists (PyIO.World (fun i => if Nat.even i then 0 else 4) 0 [] 0).
    split; compute_done.
Qed.
